(** * Zankli-Request: the authentication provider and the context read hook

    A shallow embedding of [src/context/AuthContext.tsx] and
    [src/hooks/useRequests.ts].

    The provider keeps four pieces of React state and talks to a hosted
    backend through three asynchronous calls.  The embedding threads the
    provider state explicitly, records every setter call, backend call and
    console message in a chronological trace, and represents a JavaScript
    completion as either a normal value or a thrown value, so that
    [try]/[catch]/[finally] can be written the way the source writes them. *)

From Stdlib Require Import String List.
From ExtLib Require Import Structures.Monad Structures.MonadExc.
Import ListNotations.
Import MonadNotation.
Local Open Scope string_scope.
Local Open Scope list_scope.
Local Open Scope monad_scope.

(** ** Data model *)

(** [session.user] of the backend SDK: [email] is an optional property,
    which the source reads through a compile-time-only [!]. *)
Record SessionUser := mkSessionUser {
  user_id : string;
  user_email : option string
}.

(** The backend session: opaque apart from the identity it carries. *)
Record Session := mkSession {
  access_token : string;
  user : SessionUser
}.

(** [User] of [../types], with the four fields [fetchUserProfile] fills. *)
Record User := mkUser {
  id : string;
  email : option string;
  role : string;
  fullName : string
}.

(** A row of the [profiles] table restricted to [select('role, full_name')]. *)
Record Profile := mkProfile {
  profile_role : string;
  full_name : string
}.

(** An error object returned in the [error] field of a backend response. *)
Record BackendError := mkBackendError {
  message : string
}.

(** A thrown JavaScript value, as far as the source inspects it: the
    handlers only read [e.message], which is a string for an [Error]
    instance and [undefined] ([None]) for a value without that property.
    The values [null] and [undefined], on which the property read itself
    fails, are not thrown by the backend client and are left out. *)
Record Thrown := mkThrown {
  thrown_message : option string
}.

(** [{ data: { session }, error }] of [signInWithPassword]. *)
Record SignInResponse := mkSignIn {
  data_session : option Session;
  signin_error : option BackendError
}.

(** [{ data: profile, error }] of the [profiles] query ending in [single()]. *)
Record ProfileResponse := mkProfileResponse {
  profile_data : option Profile;
  profile_error : option BackendError
}.

(** [{ error }] of [signOut]. *)
Record SignOutResponse := mkSignOut {
  signout_error : option BackendError
}.

(** What awaiting a backend promise gives: it resolves or it rejects. *)
Inductive Outcome (A : Type) : Type :=
| Resolved (a : A)
| Rejected (e : Thrown).
Arguments Resolved {A} a.
Arguments Rejected {A} e.

(** The hosted backend as seen from one operation of the provider. *)
Record Backend := mkBackend {
  signInWithPassword : string -> string -> Outcome SignInResponse;
  profiles_single : string -> Outcome ProfileResponse;
  signOut : Outcome SignOutResponse
}.

(** The four [useState] cells of [AuthProvider]. *)
Record AuthState := mkAuthState {
  currentUser : option User;
  session : option Session;
  isInitializing : bool;
  isAuthenticating : bool
}.

(** [useState(null)], [useState(null)], [useState(false)], [useState(false)]. *)
Definition initial_state : AuthState :=
  mkAuthState None None false false.

(** Observable effects, in the order the code performs them. *)
Inductive Event : Type :=
| SetCurrentUser (u : option User)
| SetSession (s : option Session)
| SetIsAuthenticating (b : bool)
| CallSignIn (email password : string)
| CallProfileQuery (uid : string)
| CallSignOut
| ConsoleError (label detail : string).

(** The value [login] resolves to: [{ error: string | null }]. *)
Record LoginResult := mkLoginResult {
  error : option string
}.

(** ** Completions and the effect monad *)

Inductive Completion (A : Type) : Type :=
| Normal (a : A)
| Throw (e : Thrown).
Arguments Normal {A} a.
Arguments Throw {A} e.

(** A computation reads the provider state and yields its completion, the
    new state and the events it performed. *)
Definition M (A : Type) : Type :=
  AuthState -> Completion A * AuthState * list Event.

Definition M_ret {A} (a : A) : M A :=
  fun s => (Normal a, s, []).

Definition M_bind {A B} (m : M A) (k : A -> M B) : M B :=
  fun s =>
    match m s with
    | (Normal a, s1, t1) =>
        match k a s1 with
        | (r, s2, t2) => (r, s2, t1 ++ t2)
        end
    | (Throw e, s1, t1) => (Throw e, s1, t1)
    end.

Definition M_raise {A} (e : Thrown) : M A :=
  fun s => (Throw e, s, []).

Definition M_catch {A} (m : M A) (h : Thrown -> M A) : M A :=
  fun s =>
    match m s with
    | (Normal a, s1, t1) => (Normal a, s1, t1)
    | (Throw e, s1, t1) =>
        match h e s1 with
        | (r, s2, t2) => (r, s2, t1 ++ t2)
        end
    end.

#[global] Instance Monad_M : Monad M :=
  {| ret := @M_ret; bind := @M_bind |}.

#[global] Instance MonadExc_M : MonadExc Thrown M :=
  {| raise := @M_raise; catch := @M_catch |}.

(** [try { body } finally { cleanup }]: the cleanup runs on both kinds of
    completion; the body's completion is the block's completion unless the
    cleanup itself throws. *)
Definition try_finally {A} (body : M A) (cleanup : M unit) : M A :=
  fun s =>
    match body s with
    | (r, s1, t1) =>
        match cleanup s1 with
        | (Normal _, s2, t2) => (r, s2, t1 ++ t2)
        | (Throw e, s2, t2) => (Throw e, s2, t1 ++ t2)
        end
    end.

Definition emit (ev : Event) : M unit :=
  fun s => (Normal tt, s, [ev]).

(** [await p] for a backend promise [p], announced by the event [ev]. *)
Definition await {A} (ev : Event) (p : Outcome A) : M A :=
  emit ev ;;
  match p with
  | Resolved a => ret a
  | Rejected e => raise e
  end.

(** The state setters. *)
Definition setCurrentUser (u : option User) : M unit :=
  fun s =>
    (Normal tt,
     mkAuthState u (session s) (isInitializing s) (isAuthenticating s),
     [SetCurrentUser u]).

Definition setSession (x : option Session) : M unit :=
  fun s =>
    (Normal tt,
     mkAuthState (currentUser s) x (isInitializing s) (isAuthenticating s),
     [SetSession x]).

Definition setIsAuthenticating (b : bool) : M unit :=
  fun s =>
    (Normal tt,
     mkAuthState (currentUser s) (session s) (isInitializing s) b,
     [SetIsAuthenticating b]).

Definition console_error (label detail : string) : M unit :=
  emit (ConsoleError label detail).

(** JavaScript [x || d] for [x : string | undefined]: the empty string and
    [undefined] are falsy. *)
Definition or_default (x : option string) (d : string) : string :=
  match x with
  | Some s => if String.eqb s "" then d else s
  | None => d
  end.

(** ** The code *)

Definition profile_missing_thrown : Thrown :=
  mkThrown (Some "User is authenticated but a profile is missing.").

(** [throw error] for a response error object. *)
Definition thrown_of_error (err : BackendError) : Thrown :=
  mkThrown (Some (message err)).

Definition fetchUserProfile (b : Backend) (s : Session) : M User :=
  r <- await (CallProfileQuery (user_id (user s)))
             (profiles_single b (user_id (user s))) ;;
  match profile_error r with
  | Some err =>
      console_error "Error fetching user profile:" (message err) ;;
      raise (thrown_of_error err)
  | None =>
      match profile_data r with
      | Some profile =>
          ret (mkUser (user_id (user s)) (user_email (user s))
                      (profile_role profile) (full_name profile))
      | None => raise profile_missing_thrown
      end
  end.

Definition contact_support_message : string :=
  "Login successful, but failed to retrieve user profile. Please contact support.".

Definition unknown_error_message : string :=
  "An unknown error occurred during login.".

Definition network_error_message : string :=
  "An unexpected network error occurred.".

Definition login (b : Backend) (email password : string) : M LoginResult :=
  setIsAuthenticating true ;;
  try_finally
    (catch
       (r <- await (CallSignIn email password)
                   (signInWithPassword b email password) ;;
        match signin_error r with
        | Some err => ret (mkLoginResult (Some (message err)))
        | None =>
            match data_session r with
            | Some sess =>
                catch
                  (userProfile <- fetchUserProfile b sess ;;
                   setCurrentUser (Some userProfile) ;;
                   setSession (Some sess) ;;
                   ret (mkLoginResult None))
                  (fun profileError =>
                     await CallSignOut (signOut b) ;;
                     ret (mkLoginResult (Some contact_support_message)))
            | None => ret (mkLoginResult (Some unknown_error_message))
            end
        end)
       (fun e =>
          ret (mkLoginResult
                 (Some (or_default (thrown_message e) network_error_message)))))
    (setIsAuthenticating false).

Definition logout (b : Backend) : M unit :=
  r <- await CallSignOut (signOut b) ;;
  match signout_error r with
  | Some err => console_error "Error logging out:" (message err)
  | None => ret tt
  end.

(** The callback registered with [onAuthStateChange]. *)
Definition onAuthStateChange_handler (event : string) (_session : option Session)
  : M unit :=
  if String.eqb event "SIGNED_OUT"
  then setCurrentUser None ;; setSession None
  else ret tt.

(** ** The context read hook *)

(** A React context: what [useContext] gives when no provider encloses the
    reader.  [RequestContext] lives in a file of its own, so its default
    value is a parameter of the model. *)
Record ReactContext (V : Type) := mkContext {
  defaultValue : option V
}.
Arguments mkContext {V} _.
Arguments defaultValue {V} _.

(** [useContext]: the value of the nearest enclosing provider (providers
    listed innermost first), or the context's default. *)
Definition useContext {V} (ctx : ReactContext V) (providers : list (option V))
  : option V :=
  match providers with
  | v :: _ => v
  | [] => defaultValue ctx
  end.

Definition useRequests_message : string :=
  "useRequests must be used within a RequestProvider".

Definition useRequests {V} (RequestContext : ReactContext V)
    (providers : list (option V)) : Completion V :=
  let context := useContext RequestContext providers in
  match context with
  | None => Throw (mkThrown (Some useRequests_message))
  | Some c => Normal c
  end.

(** [mentions needle hay]: [needle] occurs in [hay]. *)
Definition mentions (needle hay : string) : bool :=
  match String.index 0 needle hay with
  | Some _ => true
  | None => false
  end.

(** ** Reading a run *)

Definition completion_of {A} (x : Completion A * AuthState * list Event)
  : Completion A := fst (fst x).

Definition state_of {A} (x : Completion A * AuthState * list Event)
  : AuthState := snd (fst x).

Definition trace_of {A} (x : Completion A * AuthState * list Event)
  : list Event := snd x.

Definition is_signOut_call (ev : Event) : bool :=
  match ev with CallSignOut => true | _ => false end.

Definition is_profile_query (ev : Event) : bool :=
  match ev with CallProfileQuery _ => true | _ => false end.

Definition is_setIsAuthenticating (ev : Event) : bool :=
  match ev with SetIsAuthenticating _ => true | _ => false end.

Definition is_user_or_session_setter (ev : Event) : bool :=
  match ev with
  | SetCurrentUser _ | SetSession _ => true
  | _ => false
  end.

Definition count (f : Event -> bool) (t : list Event) : nat :=
  length (filter f t).

(** ** Conditions on the backend named by the specification *)

(** Sign-in succeeds: the call resolves with a session and no error. *)
Definition sign_in_succeeds (b : Backend) (email password : string)
    (sess : Session) : Prop :=
  exists r, signInWithPassword b email password = Resolved r /\
            signin_error r = None /\ data_session r = Some sess.

(** Sign-in rejects the credentials: the call resolves with an error. *)
Definition sign_in_rejects (b : Backend) (email password : string)
    (err : BackendError) : Prop :=
  exists r, signInWithPassword b email password = Resolved r /\
            signin_error r = Some err.

(** The profile lookup succeeds with row [p]. *)
Definition profile_lookup_succeeds (b : Backend) (sess : Session)
    (p : Profile) : Prop :=
  exists pr, profiles_single b (user_id (user sess)) = Resolved pr /\
             profile_error pr = None /\ profile_data pr = Some p.

(** The profile lookup fails (rejects or returns an error) or has no row. *)
Definition profile_lookup_fails (b : Backend) (sess : Session) : Prop :=
  match profiles_single b (user_id (user sess)) with
  | Rejected _ => True
  | Resolved pr => profile_error pr <> None \/ profile_data pr = None
  end.

(** [currentUser] and [session] are both set or both cleared. *)
Definition paired (s : AuthState) : Prop :=
  (currentUser s <> None /\ session s <> None) \/
  (currentUser s = None /\ session s = None).

(** One operation of the provider, with its state updates applied. *)
Inductive step : AuthState -> AuthState -> Prop :=
| step_login b email password s :
    step s (state_of (login b email password s))
| step_logout b s :
    step s (state_of (logout b s))
| step_notify event sess s :
    step s (state_of (onAuthStateChange_handler event sess s)).

(** The states the provider can be in, starting from its mount. *)
Inductive reachable : AuthState -> Prop :=
| reachable_initial : reachable initial_state
| reachable_step s s' : reachable s -> step s s' -> reachable s'.

(** The unexpected-error messages of [login]: the fixed text for a
    response with neither error nor session, and the text derived from a
    value thrown by one of the calls. *)
Inductive unexpected_error_message (b : Backend) (email password : string)
  : string -> Prop :=
| unexpected_unknown r :
    signInWithPassword b email password = Resolved r ->
    signin_error r = None -> data_session r = None ->
    unexpected_error_message b email password unknown_error_message
| unexpected_sign_in_threw e :
    signInWithPassword b email password = Rejected e ->
    unexpected_error_message b email password
      (or_default (thrown_message e) network_error_message)
| unexpected_sign_out_threw sess e :
    sign_in_succeeds b email password sess ->
    profile_lookup_fails b sess ->
    signOut b = Rejected e ->
    unexpected_error_message b email password
      (or_default (thrown_message e) network_error_message).

(** The four shapes of the [error] field of [login]'s result. *)
Inductive login_error_shape (b : Backend) (email password : string)
  : option string -> Prop :=
| shape_success sess p :
    sign_in_succeeds b email password sess ->
    profile_lookup_succeeds b sess p ->
    login_error_shape b email password None
| shape_credentials err :
    sign_in_rejects b email password err ->
    login_error_shape b email password (Some (message err))
| shape_profile_missing sess :
    sign_in_succeeds b email password sess ->
    profile_lookup_fails b sess ->
    login_error_shape b email password (Some contact_support_message)
| shape_unexpected msg :
    unexpected_error_message b email password msg ->
    login_error_shape b email password (Some msg).

(** ** Sample backends and values *)

Definition alice_session : Session :=
  mkSession "token-1" (mkSessionUser "u-1" (Some "alice@zankli.example")).

Definition alice_profile : Profile := mkProfile "admin" "Alice Obi".

Definition invalid_credentials : BackendError :=
  mkBackendError "Invalid login credentials".

Definition signin_ok (_ _ : string) : Outcome SignInResponse :=
  Resolved (mkSignIn (Some alice_session) None).

Definition profile_ok (_ : string) : Outcome ProfileResponse :=
  Resolved (mkProfileResponse (Some alice_profile) None).

Definition profile_no_row (_ : string) : Outcome ProfileResponse :=
  Resolved (mkProfileResponse None None).

Definition profile_failed (_ : string) : Outcome ProfileResponse :=
  Resolved (mkProfileResponse None (Some (mkBackendError "no rows returned"))).

Definition signout_ok : Outcome SignOutResponse :=
  Resolved (mkSignOut None).

Definition signout_error_response : Outcome SignOutResponse :=
  Resolved (mkSignOut (Some (mkBackendError "session not found"))).

Definition fetch_failed : Thrown := mkThrown (Some "Failed to fetch").

(** Everything works. *)
Definition backend_ok : Backend :=
  mkBackend signin_ok profile_ok signout_ok.

(** The credentials are refused. *)
Definition backend_bad_credentials : Backend :=
  mkBackend (fun _ _ => Resolved (mkSignIn None (Some invalid_credentials)))
            profile_ok signout_ok.

(** The user exists but has no profile row. *)
Definition backend_no_profile : Backend :=
  mkBackend signin_ok profile_no_row signout_ok.

(** No profile row, and the sign-out request fails in transit. *)
Definition backend_no_profile_signout_throws : Backend :=
  mkBackend signin_ok profile_failed (Rejected fetch_failed).

(** Sign-out answers with an error object. *)
Definition backend_signout_error : Backend :=
  mkBackend signin_ok profile_ok signout_error_response.

(** Sign-out fails in transit. *)
Definition backend_signout_throws : Backend :=
  mkBackend signin_ok profile_ok (Rejected fetch_failed).

(** The state after Alice has logged in. *)
Definition alice_logged_in : AuthState :=
  mkAuthState
    (Some (mkUser "u-1" (Some "alice@zankli.example") "admin" "Alice Obi"))
    (Some alice_session) false false.

(** The state [login] leaves when it sets neither user nor session: only
    the [finally] block has changed anything. *)
Definition idle (s : AuthState) : AuthState :=
  mkAuthState (currentUser s) (session s) (isInitializing s) false.

Definition is_console_error (ev : Event) : bool :=
  match ev with ConsoleError _ _ => true | _ => false end.

(** ** Replaying a trace, and the synchronous blocks of a run *)

Definition is_backend_call (ev : Event) : bool :=
  match ev with
  | CallSignIn _ _ | CallProfileQuery _ | CallSignOut => true
  | _ => false
  end.

(** The effect of one recorded event on the provider state: a setter call
    stores its argument, every other event leaves the state alone. *)
Definition apply_event (s : AuthState) (ev : Event) : AuthState :=
  match ev with
  | SetCurrentUser u =>
      mkAuthState u (session s) (isInitializing s) (isAuthenticating s)
  | SetSession x =>
      mkAuthState (currentUser s) x (isInitializing s) (isAuthenticating s)
  | SetIsAuthenticating a =>
      mkAuthState (currentUser s) (session s) (isInitializing s) a
  | _ => s
  end.

Definition replay (t : list Event) (s : AuthState) : AuthState :=
  fold_left apply_event t s.

(** An [async] function runs synchronously up to each [await] of a backend
    call and resumes in a later task: the trace of a run is cut after every
    backend call.  The setter calls of one block are applied together (the
    tree is mounted with [createRoot], which batches them). *)
Fixpoint sync_blocks (t : list Event) : list (list Event) :=
  match t with
  | [] => [[]]
  | ev :: rest =>
      if is_backend_call ev then [ev] :: sync_blocks rest
      else match sync_blocks rest with
           | blk :: more => (ev :: blk) :: more
           | [] => [[ev]]
           end
  end.

(** One task of the event loop: a synchronous block of some [login] or
    [logout] call that is in flight (started in any state [s0]), or the
    delivery of a notification.  Blocks of different calls may alternate in
    any order. *)
Inductive task : AuthState -> AuthState -> Prop :=
| task_login b email password s0 blk s :
    In blk (sync_blocks (trace_of (login b email password s0))) ->
    task s (replay blk s)
| task_logout b s0 blk s :
    In blk (sync_blocks (trace_of (logout b s0))) ->
    task s (replay blk s)
| task_notify event sess s :
    task s (state_of (onAuthStateChange_handler event sess s)).

(** The states the provider can show between two tasks. *)
Inductive observable : AuthState -> Prop :=
| observable_initial : observable initial_state
| observable_task s s' : observable s -> task s s' -> observable s'.

(** [currentUser] and [session] describe the same identity. *)
Definition same_identity (s : AuthState) : Prop :=
  match currentUser s, session s with
  | Some u, Some sess =>
      id u = user_id (user sess) /\ email u = user_email (user sess)
  | None, None => True
  | _, _ => False
  end.

(** ** Notifications in sequence *)

Definition is_signed_out (n : string * option Session) : bool :=
  String.eqb (fst n) "SIGNED_OUT".

(** The state after the listener has handled the notifications [ns]. *)
Definition notify_all (ns : list (string * option Session)) (s : AuthState)
  : AuthState :=
  fold_left
    (fun st n => state_of (onAuthStateChange_handler (fst n) (snd n) st))
    ns s.

(** The state with user and session cleared. *)
Definition cleared (s : AuthState) : AuthState :=
  mkAuthState None None (isInitializing s) (isAuthenticating s).

(** ** The bootstrap of [src/index.tsx] *)

(** An element of the document, as far as [getElementById] looks at it. *)
Record DomElement := mkDomElement {
  dom_tag : string;
  dom_id : option string
}.

Definition has_id (key : string) (el : DomElement) : bool :=
  match dom_id el with
  | Some i => String.eqb i key
  | None => false
  end.

(** [document.getElementById]: the first element, in document order, whose
    [id] is [key], or [null].  The document is the list of its elements in
    that order. *)
Definition getElementById (document : list DomElement) (key : string)
  : option DomElement :=
  find (has_id key) document.

(** A React element: a component with its children. *)
#[warnings="-register-all"]
Inductive ReactElement : Type :=
| Element (component : string) (children : list ReactElement).

Definition app_tree : ReactElement :=
  Element "React.StrictMode"
    [Element "AuthProvider"
       [Element "RequestProvider"
          [Element "VendorProvider"
             [Element "StoreProvider"
                [Element "App" []]]]]].

(** [createRoot(container).render(tree)]. *)
Record Mounted := mkMounted {
  container : DomElement;
  rendered : ReactElement
}.

Definition root_missing_message : string :=
  "Could not find root element to mount to".

Definition bootstrap (document : list DomElement) : Completion Mounted :=
  let rootElement := getElementById document "root" in
  match rootElement with
  | None => Throw (mkThrown (Some root_missing_message))
  | Some el => Normal (mkMounted el app_tree)
  end.

(** Unfolds the code and the monad down to pairs and matches. *)
Ltac run_code :=
  unfold login, logout, fetchUserProfile, onAuthStateChange_handler,
    try_finally, await, console_error, emit,
    setCurrentUser, setSession, setIsAuthenticating,
    completion_of, state_of, trace_of;
  cbn; unfold M_bind, M_ret, M_catch, M_raise; cbn.

(** ** Concrete runs *)

Example login_ok_run :
  login backend_ok "alice@zankli.example" "pw" initial_state =
  (Normal (mkLoginResult None), alice_logged_in,
   [SetIsAuthenticating true;
    CallSignIn "alice@zankli.example" "pw";
    CallProfileQuery "u-1";
    SetCurrentUser (currentUser alice_logged_in);
    SetSession (Some alice_session);
    SetIsAuthenticating false]).
Proof. reflexivity. Qed.

Example login_bad_credentials_run :
  login backend_bad_credentials "alice@zankli.example" "bad" initial_state =
  (Normal (mkLoginResult (Some "Invalid login credentials")), initial_state,
   [SetIsAuthenticating true;
    CallSignIn "alice@zankli.example" "bad";
    SetIsAuthenticating false]).
Proof. reflexivity. Qed.

Example login_no_profile_run :
  login backend_no_profile "alice@zankli.example" "pw" initial_state =
  (Normal (mkLoginResult (Some contact_support_message)), initial_state,
   [SetIsAuthenticating true;
    CallSignIn "alice@zankli.example" "pw";
    CallProfileQuery "u-1";
    CallSignOut;
    SetIsAuthenticating false]).
Proof. reflexivity. Qed.

Example login_signout_throws_run :
  login backend_no_profile_signout_throws "alice@zankli.example" "pw"
        initial_state =
  (Normal (mkLoginResult (Some "Failed to fetch")), initial_state,
   [SetIsAuthenticating true;
    CallSignIn "alice@zankli.example" "pw";
    CallProfileQuery "u-1";
    ConsoleError "Error fetching user profile:" "no rows returned";
    CallSignOut;
    SetIsAuthenticating false]).
Proof. reflexivity. Qed.

Example logout_error_run :
  logout backend_signout_error alice_logged_in =
  (Normal tt, alice_logged_in,
   [CallSignOut; ConsoleError "Error logging out:" "session not found"]).
Proof. reflexivity. Qed.

Example logout_throws_run :
  logout backend_signout_throws alice_logged_in =
  (Throw fetch_failed, alice_logged_in, [CallSignOut]).
Proof. reflexivity. Qed.

(** ** The runs of [login], one lemma per path through the code *)

Section LoginPaths.

Variables (b : Backend) (email password : string) (s : AuthState).

Lemma login_sign_in_threw e :
  signInWithPassword b email password = Rejected e ->
  login b email password s =
  (Normal (mkLoginResult
             (Some (or_default (thrown_message e) network_error_message))),
   idle s,
   [SetIsAuthenticating true; CallSignIn email password;
    SetIsAuthenticating false]).
Proof. intros H. run_code. rewrite H. reflexivity. Qed.

Lemma login_credentials_rejected err :
  sign_in_rejects b email password err ->
  login b email password s =
  (Normal (mkLoginResult (Some (message err))), idle s,
   [SetIsAuthenticating true; CallSignIn email password;
    SetIsAuthenticating false]).
Proof.
  intros (r & H & Herr). run_code. rewrite H. cbn. rewrite Herr. reflexivity.
Qed.

Lemma login_no_session r :
  signInWithPassword b email password = Resolved r ->
  signin_error r = None -> data_session r = None ->
  login b email password s =
  (Normal (mkLoginResult (Some unknown_error_message)), idle s,
   [SetIsAuthenticating true; CallSignIn email password;
    SetIsAuthenticating false]).
Proof.
  intros H Herr Hsess. run_code. rewrite H. cbn. rewrite Herr, Hsess.
  reflexivity.
Qed.

Lemma login_succeeded sess p :
  sign_in_succeeds b email password sess ->
  profile_lookup_succeeds b sess p ->
  let u := mkUser (user_id (user sess)) (user_email (user sess))
                  (profile_role p) (full_name p) in
  login b email password s =
  (Normal (mkLoginResult None),
   mkAuthState (Some u) (Some sess) (isInitializing s) false,
   [SetIsAuthenticating true; CallSignIn email password;
    CallProfileQuery (user_id (user sess));
    SetCurrentUser (Some u); SetSession (Some sess);
    SetIsAuthenticating false]).
Proof.
  intros (r & H & Herr & Hsess) (pr & Hp & Hperr & Hrow) u. run_code.
  rewrite H. cbn. rewrite Herr, Hsess. cbn. rewrite Hp. cbn.
  rewrite Hperr, Hrow. reflexivity.
Qed.

Lemma login_profile_failed sess :
  sign_in_succeeds b email password sess ->
  profile_lookup_fails b sess ->
  exists log,
    Forall (fun ev => is_console_error ev = true) log /\
    login b email password s =
    (Normal (mkLoginResult
               (Some match signOut b with
                     | Resolved _ => contact_support_message
                     | Rejected e =>
                         or_default (thrown_message e) network_error_message
                     end)),
     idle s,
     [SetIsAuthenticating true; CallSignIn email password;
      CallProfileQuery (user_id (user sess))] ++ log ++
     [CallSignOut; SetIsAuthenticating false]).
Proof.
  intros (r & H & Herr & Hsess) Hfail. unfold profile_lookup_fails in Hfail.
  run_code. rewrite H. cbn. rewrite Herr, Hsess. cbn.
  destruct (profiles_single b (user_id (user sess))) as [pr | e]; cbn.
  - destruct (profile_error pr) as [perr | ] eqn:Hperr; cbn.
    + exists [ConsoleError "Error fetching user profile:" (message perr)].
      split; [repeat constructor | ].
      destruct (signOut b); reflexivity.
    + destruct Hfail as [Hne | Hrow]; [congruence | ].
      rewrite Hrow. exists []. split; [constructor | ].
      destruct (signOut b); reflexivity.
  - exists []. split; [constructor | ].
    destruct (signOut b); reflexivity.
Qed.

End LoginPaths.

(** Every backend falls under one of the five paths. *)
Lemma backend_cases (b : Backend) (email password : string) :
  (exists e, signInWithPassword b email password = Rejected e) \/
  (exists err, sign_in_rejects b email password err) \/
  (exists r, signInWithPassword b email password = Resolved r /\
             signin_error r = None /\ data_session r = None) \/
  (exists sess, sign_in_succeeds b email password sess /\
                ((exists p, profile_lookup_succeeds b sess p) \/
                 profile_lookup_fails b sess)).
Proof.
  destruct (signInWithPassword b email password) as [r | e] eqn:H.
  2: { left. eauto. }
  right. destruct (signin_error r) as [err | ] eqn:Herr.
  { left. exists err, r. auto. }
  right. destruct (data_session r) as [sess | ] eqn:Hsess.
  2: { left. exists r. auto. }
  right. exists sess. split; [exists r; auto | ].
  unfold profile_lookup_succeeds, profile_lookup_fails.
  destruct (profiles_single b (user_id (user sess))) as [pr | e]; [ | auto].
  destruct (profile_error pr) eqn:Hperr; [right; left; congruence | ].
  destruct (profile_data pr) as [p | ] eqn:Hrow; [ | auto].
  left. exists p, pr. auto.
Qed.

(** ** Successful login *)

(** C1. When the backend sign-in succeeds and the profile lookup succeeds,
    [login] resolves to [{error: null}]; afterwards [currentUser] holds a
    user whose [role] and [fullName] are the profile record's [role] and
    [full_name] and whose [id] and [email] are those of the session's
    identity, and [session] holds the session. *)
Theorem login_success_assembles_user
    (b : Backend) (mail password : string) (s : AuthState)
    (sess : Session) (p : Profile) :
  sign_in_succeeds b mail password sess ->
  profile_lookup_succeeds b sess p ->
  let out := login b mail password s in
  completion_of out = Normal (mkLoginResult None) /\
  session (state_of out) = Some sess /\
  exists u, currentUser (state_of out) = Some u /\
            role u = profile_role p /\
            fullName u = full_name p /\
            id u = user_id (user sess) /\
            email u = user_email (user sess).
Proof.
  intros Hin Hp out. subst out.
  rewrite (login_succeeded b mail password s sess p Hin Hp). cbn.
  split; [reflexivity | split; [reflexivity | ]].
  eexists. split; [reflexivity | ]. cbn. auto.
Qed.

Lemma login_success_assembles_user_witness :
  let out := login backend_ok "alice@zankli.example" "pw" initial_state in
  completion_of out = Normal (mkLoginResult None) /\
  session (state_of out) = Some alice_session /\
  exists u, currentUser (state_of out) = Some u /\
            role u = "admin" /\
            fullName u = "Alice Obi" /\
            id u = "u-1" /\
            email u = Some "alice@zankli.example".
Proof.
  apply (login_success_assembles_user backend_ok "alice@zankli.example" "pw"
           initial_state alice_session alice_profile).
  - eexists. repeat split; reflexivity.
  - eexists. repeat split; reflexivity.
Defined.

(** ** The error taxonomy *)

(** C2. Every [login] call resolves, and the [error] field of the value it
    resolves to has one of four shapes: [null] on success, the backend's
    credential-rejection message, the fixed contact-support message, or an
    unexpected-error message (the fixed text for a response without
    session, or the text derived from a thrown value). *)
Theorem login_error_taxonomy
    (b : Backend) (email password : string) (s : AuthState) :
  exists res,
    completion_of (login b email password s) = Normal res /\
    login_error_shape b email password (error res).
Proof.
  destruct (backend_cases b email password)
    as [(e & H) | [(err & H) | [(r & H & Herr & Hsess) | (sess & Hin & Hp)]]].
  - rewrite (login_sign_in_threw b email password s e H). eexists. split; [reflexivity | ].
    cbn. apply shape_unexpected. now apply unexpected_sign_in_threw.
  - rewrite (login_credentials_rejected b email password s err H). eexists.
    split; [reflexivity | ]. cbn. now apply shape_credentials.
  - rewrite (login_no_session b email password s r H Herr Hsess). eexists.
    split; [reflexivity | ]. cbn. apply shape_unexpected.
    now apply unexpected_unknown with r.
  - destruct Hp as [(p & Hp) | Hfail].
    + rewrite (login_succeeded b email password s sess p Hin Hp). eexists. split; [reflexivity | ].
      cbn. now apply shape_success with sess p.
    + destruct (login_profile_failed b email password s sess Hin Hfail) as (log & _ & Hrun).
      rewrite Hrun. eexists. split; [reflexivity | ]. cbn.
      destruct (signOut b) as [r | e] eqn:Hout.
      * now apply shape_profile_missing with sess.
      * apply shape_unexpected.
        now apply unexpected_sign_out_threw with sess.
Qed.

(** ** The pairing invariant *)

Lemma logout_keeps_state (b : Backend) (s : AuthState) :
  state_of (logout b s) = s.
Proof.
  run_code. destruct (signOut b) as [r | e]; cbn; [ | reflexivity].
  destruct (signout_error r); reflexivity.
Qed.

Lemma idle_paired (s : AuthState) : paired s -> paired (idle s).
Proof. unfold paired, idle. cbn. auto. Qed.

Lemma login_keeps_paired (b : Backend) (mail password : string)
    (s : AuthState) :
  paired s -> paired (state_of (login b mail password s)).
Proof.
  intros Hs.
  destruct (backend_cases b mail password)
    as [(e & H) | [(err & H) | [(r & H & Herr & Hsess) | (sess & Hin & Hp)]]].
  - rewrite (login_sign_in_threw b mail password s e H).
    now apply idle_paired.
  - rewrite (login_credentials_rejected b mail password s err H).
    now apply idle_paired.
  - rewrite (login_no_session b mail password s r H Herr Hsess).
    now apply idle_paired.
  - destruct Hp as [(p & Hp) | Hfail].
    + rewrite (login_succeeded b mail password s sess p Hin Hp).
      left. cbn. split; discriminate.
    + destruct (login_profile_failed b mail password s sess Hin Hfail)
        as (log & _ & Hrun).
      rewrite Hrun. now apply idle_paired.
Qed.

Lemma handler_keeps_paired (event : string) (sess : option Session)
    (s : AuthState) :
  paired s -> paired (state_of (onAuthStateChange_handler event sess s)).
Proof.
  intros Hs. run_code. destruct (String.eqb event "SIGNED_OUT"); cbn.
  - right. split; reflexivity.
  - exact Hs.
Qed.

Lemma step_keeps_paired (s s' : AuthState) :
  step s s' -> paired s -> paired s'.
Proof.
  intros Hstep Hs. inversion Hstep; subst.
  - now apply login_keeps_paired.
  - now rewrite logout_keeps_state.
  - now apply handler_keeps_paired.
Qed.

(** C3. In every reachable state of the provider, [currentUser] and
    [session] are both non-null or both null: no login (whatever its
    outcome), logout or auth-state-change notification leaves exactly one of
    them set once its state updates are applied. *)
Theorem user_and_session_paired (s : AuthState) :
  reachable s -> paired s.
Proof.
  induction 1 as [ | s s' _ IH Hstep].
  - right. split; reflexivity.
  - exact (step_keeps_paired s s' Hstep IH).
Qed.

Lemma user_and_session_paired_witness : paired alice_logged_in.
Proof.
  apply (user_and_session_paired alice_logged_in).
  apply reachable_step with initial_state; [apply reachable_initial | ].
  exact (step_login backend_ok "alice@zankli.example" "pw" initial_state).
Defined.

(** ** Counting events in a trace *)

Lemma count_app (f : Event -> bool) (t u : list Event) :
  count f (t ++ u) = count f t + count f u.
Proof. unfold count. now rewrite filter_app, length_app. Qed.

(** Console messages are none of the events counted below. *)
Lemma count_console_log (f : Event -> bool) (log : list Event) :
  (forall label detail, f (ConsoleError label detail) = false) ->
  Forall (fun ev => is_console_error ev = true) log ->
  count f log = 0.
Proof.
  intros Hf Hlog. induction Hlog as [ | ev log Hev _ IH]; [reflexivity | ].
  destruct ev; try discriminate Hev.
  unfold count in *. cbn. now rewrite Hf.
Qed.

(** ** Profile lookup failure *)

(** C4, as the code has it. When the backend sign-in succeeds but the
    profile lookup fails or returns no row, [login] issues exactly one
    compensating sign-out call, never calls the setters of [currentUser] and
    [session] (both keep their previous value, so a logged-out provider stays
    logged out) and leaves [isAuthenticating] false; and whenever that
    sign-out call returns, [login] resolves to the fixed contact-support
    message. *)
Theorem login_profile_failure_compensates
    (b : Backend) (mail password : string) (s : AuthState) (sess : Session) :
  sign_in_succeeds b mail password sess ->
  profile_lookup_fails b sess ->
  let out := login b mail password s in
  count is_signOut_call (trace_of out) = 1 /\
  count is_user_or_session_setter (trace_of out) = 0 /\
  state_of out = idle s /\
  (forall r, signOut b = Resolved r ->
             completion_of out =
             Normal (mkLoginResult (Some contact_support_message))).
Proof.
  intros Hin Hfail out. subst out.
  destruct (login_profile_failed b mail password s sess Hin Hfail)
    as (log & Hlog & Hrun).
  rewrite Hrun. unfold trace_of, state_of, completion_of. cbn [fst snd].
  split; [ | split; [ | split]].
  - rewrite !count_app.
    rewrite (count_console_log is_signOut_call log); [reflexivity | | ]; auto.
  - rewrite !count_app.
    rewrite (count_console_log is_user_or_session_setter log);
      [reflexivity | | ]; auto.
  - reflexivity.
  - intros r Hout. now rewrite Hout.
Qed.

Lemma login_profile_failure_compensates_witness :
  let out := login backend_no_profile "alice@zankli.example" "pw"
                   alice_logged_in in
  count is_signOut_call (trace_of out) = 1 /\
  count is_user_or_session_setter (trace_of out) = 0 /\
  state_of out = alice_logged_in /\
  completion_of out = Normal (mkLoginResult (Some contact_support_message)).
Proof.
  destruct (login_profile_failure_compensates backend_no_profile
              "alice@zankli.example" "pw" alice_logged_in alice_session)
    as (Hcalls & Hsetters & Hstate & Hresult).
  - eexists. repeat split; reflexivity.
  - right. reflexivity.
  - split; [exact Hcalls | ]. split; [exact Hsetters | ].
    split; [exact Hstate | ].
    exact (Hresult (mkSignOut None) eq_refl).
Defined.

(** Counterexample to C4 with an unconditional message: sign-in succeeds and
    the profile lookup fails, yet [login] does not resolve to the
    contact-support message, because the compensating sign-out call
    throws. *)
Lemma login_profile_failure_message_counterexample :
  sign_in_succeeds backend_no_profile_signout_throws
    "alice@zankli.example" "pw" alice_session /\
  profile_lookup_fails backend_no_profile_signout_throws alice_session /\
  completion_of (login backend_no_profile_signout_throws
                   "alice@zankli.example" "pw" initial_state)
  = Normal (mkLoginResult (Some "Failed to fetch")) /\
  completion_of (login backend_no_profile_signout_throws
                   "alice@zankli.example" "pw" initial_state)
  <> Normal (mkLoginResult (Some contact_support_message)).
Proof.
  split; [eexists; repeat split; reflexivity | ].
  split; [left; discriminate | ].
  split; [reflexivity | discriminate].
Qed.

(** ** Credential rejection *)

(** C5. When the backend sign-in rejects the credentials, [login] resolves
    to the backend's own error message, attempts no profile lookup, and
    leaves [currentUser] and [session] as they were, with
    [isAuthenticating] false: a logged-out provider remains logged out. *)
Theorem login_credentials_rejected_message
    (b : Backend) (mail password : string) (s : AuthState)
    (err : BackendError) :
  sign_in_rejects b mail password err ->
  let out := login b mail password s in
  completion_of out = Normal (mkLoginResult (Some (message err))) /\
  count is_profile_query (trace_of out) = 0 /\
  state_of out = idle s.
Proof.
  intros H out. subst out.
  rewrite (login_credentials_rejected b mail password s err H).
  repeat split.
Qed.

Lemma login_credentials_rejected_message_witness :
  let out := login backend_bad_credentials "alice@zankli.example" "bad"
                   initial_state in
  completion_of out =
  Normal (mkLoginResult (Some "Invalid login credentials")) /\
  count is_profile_query (trace_of out) = 0 /\
  state_of out = initial_state.
Proof.
  apply (login_credentials_rejected_message backend_bad_credentials
           "alice@zankli.example" "bad" initial_state invalid_credentials).
  eexists. split; reflexivity.
Defined.

(** ** The [isAuthenticating] flag *)

(** The [finally] block of [login] runs whatever the guarded block does,
    also when it throws, and its setter call is the last event. *)
Lemma try_finally_resets {A : Type} (body : M A) (s : AuthState) :
  let out := try_finally body (setIsAuthenticating false) s in
  trace_of out = trace_of (body s) ++ [SetIsAuthenticating false] /\
  completion_of out = completion_of (body s) /\
  isAuthenticating (state_of out) = false.
Proof.
  unfold try_finally, setIsAuthenticating, trace_of, completion_of, state_of.
  destruct (body s) as [[r s1] t1]. cbn. auto.
Qed.

(** C6. Whatever the backend does (success, credential rejection, profile
    lookup failure, a response without session, or a thrown exception in any
    of the calls), [login] first sets [isAuthenticating] to true, calls its
    setter exactly once more, with false, as the last thing before it
    resolves, and leaves the flag false. *)
Theorem login_resets_isAuthenticating
    (b : Backend) (mail password : string) (s : AuthState) :
  let out := login b mail password s in
  exists res mid,
    completion_of out = Normal res /\
    trace_of out =
      SetIsAuthenticating true :: mid ++ [SetIsAuthenticating false] /\
    count is_setIsAuthenticating mid = 0 /\
    isAuthenticating (state_of out) = false.
Proof.
  intros out. subst out.
  destruct (backend_cases b mail password)
    as [(e & H) | [(err & H) | [(r & H & Herr & Hsess) | (sess & Hin & Hp)]]].
  - rewrite (login_sign_in_threw b mail password s e H).
    eexists. exists [CallSignIn mail password]. cbn. auto.
  - rewrite (login_credentials_rejected b mail password s err H).
    eexists. exists [CallSignIn mail password]. cbn. auto.
  - rewrite (login_no_session b mail password s r H Herr Hsess).
    eexists. exists [CallSignIn mail password]. cbn. auto.
  - destruct Hp as [(p & Hp) | Hfail].
    + rewrite (login_succeeded b mail password s sess p Hin Hp).
      eexists. eexists (_ :: _ :: _ :: [_]). cbn.
      split; [reflexivity | ]. split; [reflexivity | auto].
    + destruct (login_profile_failed b mail password s sess Hin Hfail)
        as (log & Hlog & Hrun).
      rewrite Hrun. eexists.
      exists ([CallSignIn mail password;
               CallProfileQuery (user_id (user sess))] ++ log ++ [CallSignOut]).
      unfold completion_of, trace_of, state_of. cbn [fst snd].
      split; [reflexivity | ]. split; [ | split; [ | reflexivity]].
      * cbn. now rewrite <- app_assoc.
      * rewrite !count_app.
        rewrite (count_console_log is_setIsAuthenticating log);
          [reflexivity | | ]; auto.
Qed.

(** ** The auth-state-change listener *)

(** C7. A sign-out notification makes the handler set both [currentUser]
    and [session] to null (and nothing else); a notification of any other
    kind leaves the state unchanged and calls no setter. *)
Theorem handler_clears_only_on_signed_out
    (event : string) (payload : option Session) (s : AuthState) :
  let out := onAuthStateChange_handler event payload s in
  completion_of out = Normal tt /\
  (event = "SIGNED_OUT" ->
   currentUser (state_of out) = None /\
   session (state_of out) = None /\
   isInitializing (state_of out) = isInitializing s /\
   isAuthenticating (state_of out) = isAuthenticating s) /\
  (event <> "SIGNED_OUT" ->
   state_of out = s /\ trace_of out = []).
Proof.
  intros out. subst out. run_code.
  destruct (String.eqb_spec event "SIGNED_OUT") as [Heq | Hne]; cbn.
  - split; [reflexivity | ]. split; [auto | contradiction].
  - split; [reflexivity | ]. split; [contradiction | auto].
Qed.

Lemma handler_clears_only_on_signed_out_witness :
  (currentUser (state_of (onAuthStateChange_handler "SIGNED_OUT" None
                            alice_logged_in)) = None /\
   session (state_of (onAuthStateChange_handler "SIGNED_OUT" None
                        alice_logged_in)) = None) /\
  state_of (onAuthStateChange_handler "TOKEN_REFRESHED" (Some alice_session)
              alice_logged_in) = alice_logged_in.
Proof.
  split.
  - destruct (handler_clears_only_on_signed_out "SIGNED_OUT" None
                alice_logged_in) as (_ & Hout & _).
    destruct (Hout eq_refl) as (Hu & Hs & _). split; [exact Hu | exact Hs].
  - destruct (handler_clears_only_on_signed_out "TOKEN_REFRESHED"
                (Some alice_session) alice_logged_in) as (_ & _ & Hother).
    apply Hother. discriminate.
Defined.

(** ** Logout *)

(** C8, as the code has it. [logout] calls no state setter and leaves
    [currentUser], [session], [isInitializing] and [isAuthenticating] as
    they were, whatever the backend does; whenever the backend sign-out
    call returns, with or without an error, [logout] resolves normally, a
    returned error being written to the console and nothing else; and when
    the sign-out call itself throws, the thrown value propagates to the
    caller of [logout], with nothing written to the console. *)
Theorem logout_frame_and_swallowed_error (b : Backend) (s : AuthState) :
  let out := logout b s in
  state_of out = s /\
  count is_user_or_session_setter (trace_of out) = 0 /\
  count is_setIsAuthenticating (trace_of out) = 0 /\
  (forall r, signOut b = Resolved r ->
     completion_of out = Normal tt /\
     trace_of out =
       CallSignOut ::
       match signout_error r with
       | Some err => [ConsoleError "Error logging out:" (message err)]
       | None => []
       end) /\
  (forall e, signOut b = Rejected e ->
     completion_of out = Throw e /\
     trace_of out = [CallSignOut]).
Proof.
  intros out. subst out. run_code.
  destruct (signOut b) as [r | e]; cbn.
  - destruct (signout_error r) as [err | ] eqn:Herr; cbn;
      (split; [reflexivity | ]; split; [reflexivity | ];
       split; [reflexivity | ]);
      (split; [ | discriminate]);
      intros r' Hr'; injection Hr' as <-; rewrite Herr; auto.
  - split; [reflexivity | ]. split; [reflexivity | ].
    split; [reflexivity | ]. split; [discriminate | ].
    intros e' He. injection He as <-. auto.
Qed.

Lemma logout_frame_and_swallowed_error_witness :
  (let out := logout backend_signout_error alice_logged_in in
   state_of out = alice_logged_in /\
   completion_of out = Normal tt /\
   trace_of out =
     [CallSignOut; ConsoleError "Error logging out:" "session not found"]) /\
  (let out := logout backend_signout_throws alice_logged_in in
   state_of out = alice_logged_in /\
   completion_of out = Throw fetch_failed /\
   trace_of out = [CallSignOut]).
Proof.
  split.
  - destruct (logout_frame_and_swallowed_error backend_signout_error
                alice_logged_in) as (Hstate & _ & _ & Hreturns & _).
    destruct (Hreturns
                (mkSignOut (Some (mkBackendError "session not found")))
                eq_refl) as (Hdone & Htrace).
    split; [exact Hstate | ]. split; [exact Hdone | exact Htrace].
  - destruct (logout_frame_and_swallowed_error backend_signout_throws
                alice_logged_in) as (Hstate & _ & _ & _ & Hthrows).
    destruct (Hthrows fetch_failed eq_refl) as (Hthrown & Htrace).
    split; [exact Hstate | ]. split; [exact Hthrown | exact Htrace].
Defined.

(** Counterexample to C8 with an unconditional resolution: when the backend
    sign-out call throws, [logout] has no handler for it and completes with
    the thrown value instead of resolving. *)
Lemma logout_always_resolves_counterexample :
  completion_of (logout backend_signout_throws alice_logged_in)
  = Throw fetch_failed /\
  completion_of (logout backend_signout_throws alice_logged_in)
  <> Normal tt.
Proof. split; [reflexivity | discriminate]. Qed.

(** ** The context read hook *)

(** C9. When the value read from the context is undefined, which is the
    case outside every provider of a context whose default is undefined,
    [useRequests] throws an error whose message names [RequestProvider];
    otherwise it returns the value read. *)
Theorem useRequests_requires_provider
    (V : Type) (RequestContext : ReactContext V)
    (providers : list (option V)) :
  (useContext RequestContext providers = None ->
   useRequests RequestContext providers =
     Throw (mkThrown (Some useRequests_message)) /\
   mentions "RequestProvider" useRequests_message = true) /\
  (providers = [] -> defaultValue RequestContext = None ->
   useContext RequestContext providers = None) /\
  (forall v, useContext RequestContext providers = Some v ->
             useRequests RequestContext providers = Normal v).
Proof.
  unfold useRequests. split; [ | split].
  - intros H. rewrite H. split; reflexivity.
  - intros -> H. exact H.
  - intros v H. rewrite H. reflexivity.
Qed.

Lemma useRequests_requires_provider_witness :
  useRequests (mkContext (@None nat)) [] =
    Throw (mkThrown
             (Some "useRequests must be used within a RequestProvider")) /\
  useRequests (mkContext (@None nat)) [Some 7; Some 3] = Normal 7.
Proof.
  split.
  - apply (useRequests_requires_provider nat (mkContext None) []).
    reflexivity.
  - apply (useRequests_requires_provider nat (mkContext None)
             [Some 7; Some 3]).
    reflexivity.
Defined.

(** ** A throwing compensation *)

Lemma or_default_not_contact_support (x : option string) :
  x <> Some contact_support_message ->
  or_default x network_error_message <> contact_support_message.
Proof.
  intros Hx. destruct x as [m | ]; cbn; [ | discriminate].
  destruct (String.eqb m ""); [discriminate | congruence].
Qed.

(** C10. When sign-in succeeds, the profile lookup fails and the
    compensating sign-out call itself throws, the outer handler of [login]
    catches the thrown value: [login] resolves with the message derived from
    it (the fixed network-error text when it has none), which is not the
    contact-support message unless the thrown value carries that very text,
    and [isAuthenticating] is false afterwards. *)
Theorem login_sign_out_throw_is_generic_error
    (b : Backend) (mail password : string) (s : AuthState)
    (sess : Session) (e : Thrown) :
  sign_in_succeeds b mail password sess ->
  profile_lookup_fails b sess ->
  signOut b = Rejected e ->
  let out := login b mail password s in
  completion_of out =
    Normal (mkLoginResult
              (Some (or_default (thrown_message e) network_error_message))) /\
  (thrown_message e <> Some contact_support_message ->
   completion_of out <>
     Normal (mkLoginResult (Some contact_support_message))) /\
  isAuthenticating (state_of out) = false.
Proof.
  intros Hin Hfail Hout out. subst out.
  destruct (login_profile_failed b mail password s sess Hin Hfail)
    as (log & _ & Hrun).
  rewrite Hrun, Hout. unfold completion_of, state_of. cbn [fst snd].
  split; [reflexivity | ]. split; [ | reflexivity].
  intros Hne Heq. injection Heq as Heq.
  exact (or_default_not_contact_support _ Hne Heq).
Qed.

Lemma login_sign_out_throw_is_generic_error_witness :
  let out := login backend_no_profile_signout_throws
                   "alice@zankli.example" "pw" initial_state in
  completion_of out = Normal (mkLoginResult (Some "Failed to fetch")) /\
  completion_of out <>
    Normal (mkLoginResult (Some contact_support_message)) /\
  isAuthenticating (state_of out) = false.
Proof.
  destruct (login_sign_out_throw_is_generic_error
              backend_no_profile_signout_throws "alice@zankli.example" "pw"
              initial_state alice_session fetch_failed)
    as (Hresult & Hdiffers & Hflag).
  - eexists. split; [reflexivity | split; reflexivity].
  - left. discriminate.
  - reflexivity.
  - split; [exact Hresult | ]. split; [ | exact Hflag].
    apply Hdiffers. discriminate.
Defined.

(** ** Traces, replay and synchronous blocks *)

Lemma replay_app (t u : list Event) (s : AuthState) :
  replay (t ++ u) s = replay u (replay t s).
Proof. unfold replay. apply fold_left_app. Qed.

Lemma sync_blocks_not_nil (t : list Event) : sync_blocks t <> [].
Proof.
  destruct t as [ | ev rest]; cbn; [discriminate | ].
  destruct (is_backend_call ev); [discriminate | ].
  destruct (sync_blocks rest); discriminate.
Qed.

(** Cutting a trace into blocks loses and reorders nothing. *)
Lemma concat_sync_blocks (t : list Event) : concat (sync_blocks t) = t.
Proof.
  induction t as [ | ev rest IH]; cbn; [reflexivity | ].
  destruct (is_backend_call ev); cbn; [now rewrite IH | ].
  destruct (sync_blocks rest) as [ | blk more] eqn:Hblocks.
  - now destruct (sync_blocks_not_nil rest).
  - cbn in *. now rewrite IH.
Qed.

Lemma sync_block_events (t blk : list Event) (ev : Event) :
  In blk (sync_blocks t) -> In ev blk -> In ev t.
Proof.
  intros Hblk Hev. rewrite <- (concat_sync_blocks t).
  apply in_concat. exists blk. auto.
Qed.

Lemma sync_block_forall (P : Event -> Prop) (t blk : list Event) :
  Forall P t -> In blk (sync_blocks t) -> Forall P blk.
Proof.
  intros Ht Hblk. apply Forall_forall. intros ev Hev.
  apply (proj1 (Forall_forall P t) Ht).
  exact (sync_block_events t blk ev Hblk Hev).
Qed.

(** No event ever touches [isInitializing]. *)
Lemma replay_keeps_isInitializing (t : list Event) (s : AuthState) :
  isInitializing (replay t s) = isInitializing s.
Proof.
  revert s. induction t as [ | ev rest IH]; intros s; [reflexivity | ].
  unfold replay in *. cbn. rewrite IH. now destruct ev.
Qed.

(** A trace without [setCurrentUser] and [setSession] calls keeps both. *)
Lemma replay_keeps_user_and_session (t : list Event) (s : AuthState) :
  Forall (fun ev => is_user_or_session_setter ev = false) t ->
  currentUser (replay t s) = currentUser s /\
  session (replay t s) = session s.
Proof.
  intros Ht. revert s.
  induction Ht as [ | ev rest Hev _ IH]; intros s; [split; reflexivity | ].
  unfold replay in *. cbn.
  destruct (IH (apply_event s ev)) as (Hu & Hs). rewrite Hu, Hs.
  destruct ev; try discriminate Hev; split; reflexivity.
Qed.

Lemma console_log_no_setters (log : list Event) :
  Forall (fun ev => is_console_error ev = true) log ->
  Forall (fun ev => is_user_or_session_setter ev = false) log.
Proof.
  apply Forall_impl. intros ev Hev. destruct ev; try discriminate Hev.
  reflexivity.
Qed.

Lemma replay_console_log (log : list Event) (s : AuthState) :
  Forall (fun ev => is_console_error ev = true) log ->
  replay log s = s.
Proof.
  intros Hlog. induction Hlog as [ | ev rest Hev _ IH]; [reflexivity | ].
  destruct ev; try discriminate Hev. exact IH.
Qed.

(** The trace of [login]: either the six events of the success path, or a
    trace in which neither [setCurrentUser] nor [setSession] is called. *)
Lemma login_trace_shape (b : Backend) (mail password : string)
    (s : AuthState) :
  (exists sess p,
     sign_in_succeeds b mail password sess /\
     profile_lookup_succeeds b sess p /\
     trace_of (login b mail password s) =
     [SetIsAuthenticating true; CallSignIn mail password;
      CallProfileQuery (user_id (user sess));
      SetCurrentUser
        (Some (mkUser (user_id (user sess)) (user_email (user sess))
                      (profile_role p) (full_name p)));
      SetSession (Some sess);
      SetIsAuthenticating false]) \/
  Forall (fun ev => is_user_or_session_setter ev = false)
         (trace_of (login b mail password s)).
Proof.
  destruct (backend_cases b mail password)
    as [(e & H) | [(err & H) | [(r & H & Herr & Hsess) | (sess & Hin & Hp)]]].
  - right. rewrite (login_sign_in_threw b mail password s e H).
    repeat constructor.
  - right. rewrite (login_credentials_rejected b mail password s err H).
    repeat constructor.
  - right. rewrite (login_no_session b mail password s r H Herr Hsess).
    repeat constructor.
  - destruct Hp as [(p & Hp) | Hfail].
    + left. exists sess, p. split; [exact Hin | ]. split; [exact Hp | ].
      now rewrite (login_succeeded b mail password s sess p Hin Hp).
    + right.
      destruct (login_profile_failed b mail password s sess Hin Hfail)
        as (log & Hlog & Hrun).
      rewrite Hrun. unfold trace_of. cbn [snd].
      apply Forall_app. split; [repeat constructor | ].
      apply Forall_app. split; [ | repeat constructor].
      now apply console_log_no_setters.
Qed.

Lemma logout_trace_no_setters (b : Backend) (s : AuthState) :
  Forall (fun ev => is_user_or_session_setter ev = false)
         (trace_of (logout b s)).
Proof.
  run_code. destruct (signOut b) as [r | e]; cbn; [ | repeat constructor].
  destruct (signout_error r); repeat constructor.
Qed.

(** The state a run of [login] leaves is the one its setter calls produce. *)
Lemma login_state_is_replay (b : Backend) (mail password : string)
    (s : AuthState) :
  state_of (login b mail password s) =
  replay (trace_of (login b mail password s)) s.
Proof.
  destruct (backend_cases b mail password)
    as [(e & H) | [(err & H) | [(r & H & Herr & Hsess) | (sess & Hin & Hp)]]].
  - now rewrite (login_sign_in_threw b mail password s e H).
  - now rewrite (login_credentials_rejected b mail password s err H).
  - now rewrite (login_no_session b mail password s r H Herr Hsess).
  - destruct Hp as [(p & Hp) | Hfail].
    + now rewrite (login_succeeded b mail password s sess p Hin Hp).
    + destruct (login_profile_failed b mail password s sess Hin Hfail)
        as (log & Hlog & Hrun).
      rewrite Hrun. unfold trace_of, state_of. cbn [fst snd].
      rewrite !replay_app, (replay_console_log log _ Hlog). reflexivity.
Qed.

(** ** Invariants of the provider state *)

Lemma same_identity_frame (s s' : AuthState) :
  currentUser s' = currentUser s -> session s' = session s ->
  same_identity s -> same_identity s'.
Proof. unfold same_identity. now intros -> ->. Qed.

Lemma handler_keeps_identity (event : string) (payload : option Session)
    (s : AuthState) :
  same_identity s ->
  same_identity (state_of (onAuthStateChange_handler event payload s)).
Proof.
  intros Hs. run_code. destruct (String.eqb event "SIGNED_OUT"); cbn.
  - exact I.
  - exact Hs.
Qed.

Lemma handler_keeps_flags (event : string) (payload : option Session)
    (s : AuthState) :
  let s' := state_of (onAuthStateChange_handler event payload s) in
  isInitializing s' = isInitializing s /\
  isAuthenticating s' = isAuthenticating s.
Proof.
  run_code. destruct (String.eqb event "SIGNED_OUT"); cbn; auto.
Qed.

Lemma quiet_block_keeps_identity (t blk : list Event) (s : AuthState) :
  Forall (fun ev => is_user_or_session_setter ev = false) t ->
  In blk (sync_blocks t) ->
  same_identity s -> same_identity (replay blk s).
Proof.
  intros Ht Hblk Hs.
  destruct (replay_keeps_user_and_session blk s
              (sync_block_forall _ t blk Ht Hblk)) as (Hu & Hx).
  exact (same_identity_frame s _ Hu Hx Hs).
Qed.

Lemma task_keeps_identity (s s' : AuthState) :
  task s s' -> same_identity s -> same_identity s'.
Proof.
  intros Htask Hs.
  destruct Htask as [b mail password s0 blk s Hblk | b s0 blk s Hblk
                    | event payload s].
  - destruct (login_trace_shape b mail password s0)
      as [(sess & p & _ & _ & Htrace) | Hquiet].
    + rewrite Htrace in Hblk. cbn in Hblk.
      destruct Hblk as [<- | [<- | [<- | []]]];
        unfold same_identity in *; cbn; auto.
    + exact (quiet_block_keeps_identity _ blk s Hquiet Hblk Hs).
  - exact (quiet_block_keeps_identity _ blk s
             (logout_trace_no_setters b s0) Hblk Hs).
  - now apply handler_keeps_identity.
Qed.

Lemma task_keeps_isInitializing (s s' : AuthState) :
  task s s' -> isInitializing s' = isInitializing s.
Proof.
  intros [b mail password s0 blk s0' _ | b s0 blk s0' _ | event payload s0].
  - apply replay_keeps_isInitializing.
  - apply replay_keeps_isInitializing.
  - apply (handler_keeps_flags event payload s0).
Qed.

(** X12. Between any two tasks of the event loop, with [login] and
    [logout] calls overlapping in any way and notifications arriving in the
    middle of them, [currentUser] and [session] are both null or describe
    the same identity ([id] and [email] of the user are those of the
    session's user), and [isInitializing] is false. *)
Theorem observable_states_consistent (s : AuthState) :
  observable s -> same_identity s /\ isInitializing s = false.
Proof.
  induction 1 as [ | s s' _ (IHid & IHinit) Htask].
  - split; [exact I | reflexivity].
  - split; [exact (task_keeps_identity s s' Htask IHid) | ].
    now rewrite (task_keeps_isInitializing s s' Htask).
Qed.

Lemma observable_states_consistent_witness :
  same_identity
    (replay [SetCurrentUser (currentUser alice_logged_in);
             SetSession (Some alice_session);
             SetIsAuthenticating false]
       (replay [SetIsAuthenticating true;
                CallSignIn "alice@zankli.example" "pw"] initial_state)) /\
  isInitializing
    (replay [SetCurrentUser (currentUser alice_logged_in);
             SetSession (Some alice_session);
             SetIsAuthenticating false]
       (replay [SetIsAuthenticating true;
                CallSignIn "alice@zankli.example" "pw"] initial_state))
  = false.
Proof.
  apply observable_states_consistent.
  eapply observable_task.
  - eapply observable_task; [apply observable_initial | ].
    apply (task_login backend_ok "alice@zankli.example" "pw" initial_state).
    left. reflexivity.
  - apply (task_login backend_ok "alice@zankli.example" "pw" initial_state).
    right. right. left. reflexivity.
Defined.

(** Running an operation to completion is a sequence of tasks. *)
Lemma observable_blocks (blks : list (list Event)) (s : AuthState) :
  (forall blk s', In blk blks -> task s' (replay blk s')) ->
  observable s ->
  observable (replay (concat blks) s).
Proof.
  intros Htask. revert s.
  induction blks as [ | blk more IH]; intros s Hs; [exact Hs | ].
  cbn. rewrite replay_app. apply IH.
  - intros blk' s' Hin. apply Htask. now right.
  - apply observable_task with s; [exact Hs | ]. apply Htask. now left.
Qed.

(** Every state reached by completed operations is also seen between
    tasks. *)
Lemma reachable_observable (s : AuthState) : reachable s -> observable s.
Proof.
  induction 1 as [ | s s' _ IH Hstep]; [apply observable_initial | ].
  destruct Hstep as [b mail password s | b s | event payload s].
  - rewrite login_state_is_replay.
    rewrite <- (concat_sync_blocks (trace_of (login b mail password s))).
    apply observable_blocks; [ | exact IH].
    intros blk s' Hin. now apply (task_login b mail password s).
  - now rewrite logout_keeps_state.
  - apply observable_task with s; [exact IH | apply task_notify].
Qed.

(** The two states a run of [login] can leave. *)
Lemma login_final_state (b : Backend) (mail password : string)
    (s : AuthState) :
  state_of (login b mail password s) = idle s \/
  exists sess p,
    sign_in_succeeds b mail password sess /\
    profile_lookup_succeeds b sess p /\
    state_of (login b mail password s) =
    mkAuthState
      (Some (mkUser (user_id (user sess)) (user_email (user sess))
                    (profile_role p) (full_name p)))
      (Some sess) (isInitializing s) false.
Proof.
  destruct (backend_cases b mail password)
    as [(e & H) | [(err & H) | [(r & H & Herr & Hsess) | (sess & Hin & Hp)]]].
  - left. now rewrite (login_sign_in_threw b mail password s e H).
  - left. now rewrite (login_credentials_rejected b mail password s err H).
  - left. now rewrite (login_no_session b mail password s r H Herr Hsess).
  - destruct Hp as [(p & Hp) | Hfail].
    + right. exists sess, p. split; [exact Hin | ]. split; [exact Hp | ].
      now rewrite (login_succeeded b mail password s sess p Hin Hp).
    + left.
      destruct (login_profile_failed b mail password s sess Hin Hfail)
        as (log & _ & Hrun).
      now rewrite Hrun.
Qed.

Lemma step_settles (s s' : AuthState) :
  step s s' ->
  isInitializing s = false /\ isAuthenticating s = false /\
  same_identity s ->
  isInitializing s' = false /\ isAuthenticating s' = false /\
  same_identity s'.
Proof.
  intros Hstep (Hinit & Hauth & Hid).
  destruct Hstep as [b mail password s | b s | event payload s].
  - destruct (login_final_state b mail password s)
      as [-> | (sess & p & _ & _ & ->)]; cbn.
    + split; [exact Hinit | ]. split; [reflexivity | exact Hid].
    + split; [exact Hinit | ]. split; [reflexivity | ].
      unfold same_identity. cbn. auto.
  - rewrite logout_keeps_state. auto.
  - destruct (handler_keeps_flags event payload s) as (Hi & Ha).
    rewrite Hi, Ha. split; [exact Hinit | ]. split; [exact Hauth | ].
    now apply handler_keeps_identity.
Qed.

(** X8. In every state reachable by completed operations (logins of any
    outcome, logouts, notifications), [isInitializing] and
    [isAuthenticating] are both false, and [currentUser] and [session] are
    both null or describe the same identity. *)
Theorem reachable_states_settled (s : AuthState) :
  reachable s ->
  isInitializing s = false /\ isAuthenticating s = false /\
  same_identity s.
Proof.
  induction 1 as [ | s s' _ IH Hstep].
  - split; [reflexivity | ]. split; [reflexivity | exact I].
  - exact (step_settles s s' Hstep IH).
Qed.

Lemma reachable_states_settled_witness :
  isInitializing alice_logged_in = false /\
  isAuthenticating alice_logged_in = false /\
  same_identity alice_logged_in.
Proof.
  apply (reachable_states_settled alice_logged_in).
  apply reachable_step with initial_state; [apply reachable_initial | ].
  exact (step_login backend_ok "alice@zankli.example" "pw" initial_state).
Defined.

(** ** [fetchUserProfile] on its own *)

(** X1. [fetchUserProfile] changes no provider state and issues exactly
    one backend call, the profile query keyed by the id of the session's
    user; it returns a user exactly when that query succeeds with a row, and
    the user returned is built from the session's identity and the row. *)
Theorem fetchUserProfile_returns_iff
    (b : Backend) (sess : Session) (s : AuthState) (u : User) :
  let out := fetchUserProfile b sess s in
  state_of out = s /\
  filter is_backend_call (trace_of out) =
    [CallProfileQuery (user_id (user sess))] /\
  (completion_of out = Normal u <->
   exists p, profile_lookup_succeeds b sess p /\
             u = mkUser (user_id (user sess)) (user_email (user sess))
                        (profile_role p) (full_name p)).
Proof.
  intros out. subst out. unfold profile_lookup_succeeds. run_code.
  destruct (profiles_single b (user_id (user sess)))
    as [[[p | ] [err | ]] | e]; cbn;
    (split; [reflexivity | ]; split; [reflexivity | ]); split;
    try discriminate;
    try (intros (p' & (pr & Hpr & Herr & Hrow) & _);
         first [discriminate Hpr
               | injection Hpr as <-; cbn in *; discriminate]).
  - intros Hu. injection Hu as <-. exists p. split; [ | reflexivity].
    eexists. split; [reflexivity | split; reflexivity].
  - intros (p' & (pr & Hpr & _ & Hrow) & ->).
    injection Hpr as <-. cbn in Hrow. injection Hrow as <-. reflexivity.
Qed.

(** X2. The three ways [fetchUserProfile] fails.  A rejected query is
    rethrown as it is and nothing is logged; an error in the response is
    logged once and thrown with its message, also when the response carries
    a row; a response with neither error nor row throws the fixed
    profile-missing error and logs nothing.  In every case the provider
    state is untouched. *)
Theorem fetchUserProfile_failure_modes
    (b : Backend) (sess : Session) (s : AuthState) :
  let out := fetchUserProfile b sess s in
  (forall e, profiles_single b (user_id (user sess)) = Rejected e ->
     completion_of out = Throw e /\
     filter is_console_error (trace_of out) = []) /\
  (forall pr err,
     profiles_single b (user_id (user sess)) = Resolved pr ->
     profile_error pr = Some err ->
     completion_of out = Throw (mkThrown (Some (message err))) /\
     filter is_console_error (trace_of out) =
       [ConsoleError "Error fetching user profile:" (message err)]) /\
  (forall pr,
     profiles_single b (user_id (user sess)) = Resolved pr ->
     profile_error pr = None -> profile_data pr = None ->
     completion_of out =
       Throw (mkThrown
                (Some "User is authenticated but a profile is missing.")) /\
     filter is_console_error (trace_of out) = []) /\
  (profile_lookup_fails b sess ->
   exists e, completion_of out = Throw e /\ state_of out = s).
Proof.
  intros out. subst out. unfold profile_lookup_fails. run_code.
  destruct (profiles_single b (user_id (user sess))) as [pr | e]; cbn.
  - destruct (profile_error pr) as [err | ] eqn:Herr; cbn.
    + split; [discriminate | ]. split; [ | split].
      * intros pr' err' Hpr Herr'. injection Hpr as <-.
        rewrite Herr in Herr'. injection Herr' as <-. split; reflexivity.
      * intros pr' Hpr Herr'. injection Hpr as <-. congruence.
      * intros _. eexists. split; reflexivity.
    + destruct (profile_data pr) as [p | ] eqn:Hrow; cbn.
      * split; [discriminate | ]. split; [ | split].
        -- intros pr' err' Hpr Herr'. injection Hpr as <-. congruence.
        -- intros pr' Hpr _ Hrow'. injection Hpr as <-. congruence.
        -- intros [Hne | Hnone]; [congruence | discriminate].
      * split; [discriminate | ]. split; [ | split].
        -- intros pr' err' Hpr Herr'. injection Hpr as <-. congruence.
        -- intros pr' _ _ _. split; reflexivity.
        -- intros _. eexists. split; reflexivity.
  - split; [ | split; [discriminate | split; [discriminate | ]]].
    + intros e' He. injection He as <-. split; reflexivity.
    + intros _. eexists. split; reflexivity.
Qed.

Lemma fetchUserProfile_failure_modes_witness :
  completion_of (fetchUserProfile backend_no_profile_signout_throws
                   alice_session initial_state)
  = Throw (mkThrown (Some "no rows returned")) /\
  filter is_console_error
    (trace_of (fetchUserProfile backend_no_profile_signout_throws
                 alice_session initial_state))
  = [ConsoleError "Error fetching user profile:" "no rows returned"].
Proof.
  destruct (fetchUserProfile_failure_modes backend_no_profile_signout_throws
              alice_session initial_state) as (_ & Herror & _).
  exact (Herror (mkProfileResponse None
                   (Some (mkBackendError "no rows returned")))
                (mkBackendError "no rows returned") eq_refl eq_refl).
Defined.

Lemma fetchUserProfile_returns_iff_witness :
  completion_of (fetchUserProfile backend_ok alice_session initial_state)
  = Normal (mkUser "u-1" (Some "alice@zankli.example") "admin" "Alice Obi").
Proof.
  destruct (fetchUserProfile_returns_iff backend_ok alice_session
              initial_state
              (mkUser "u-1" (Some "alice@zankli.example") "admin"
                      "Alice Obi")) as (_ & _ & Hiff).
  apply Hiff. exists alice_profile. split; [ | reflexivity].
  eexists. split; [reflexivity | split; reflexivity].
Defined.

(** ** [login] as its callers see it *)

(** X3. [login] changes who is logged in exactly when it reports success:
    a result with a null error means that sign-in and profile lookup both
    succeeded and that [currentUser] and [session] now hold the new user and
    session; a result with any error means that neither setter was called
    and that only [isAuthenticating] was reset. *)
Theorem login_changes_state_iff_success
    (b : Backend) (mail password : string) (s : AuthState) :
  let out := login b mail password s in
  exists res,
    completion_of out = Normal res /\
    (error res = None ->
     exists sess p,
       sign_in_succeeds b mail password sess /\
       profile_lookup_succeeds b sess p /\
       currentUser (state_of out) =
         Some (mkUser (user_id (user sess)) (user_email (user sess))
                      (profile_role p) (full_name p)) /\
       session (state_of out) = Some sess) /\
    (error res <> None ->
     state_of out = idle s /\
     count is_user_or_session_setter (trace_of out) = 0).
Proof.
  intros out. subst out.
  destruct (backend_cases b mail password)
    as [(e & H) | [(err & H) | [(r & H & Herr & Hsess) | (sess & Hin & Hp)]]].
  - rewrite (login_sign_in_threw b mail password s e H). eexists.
    split; [reflexivity | ]. cbn. split; [discriminate | auto].
  - rewrite (login_credentials_rejected b mail password s err H). eexists.
    split; [reflexivity | ]. cbn. split; [discriminate | auto].
  - rewrite (login_no_session b mail password s r H Herr Hsess). eexists.
    split; [reflexivity | ]. cbn. split; [discriminate | auto].
  - destruct Hp as [(p & Hp) | Hfail].
    + rewrite (login_succeeded b mail password s sess p Hin Hp). eexists.
      split; [reflexivity | ]. cbn. split; [ | intros Hne; now destruct Hne].
      intros _. exists sess, p. auto.
    + destruct (login_profile_failed b mail password s sess Hin Hfail)
        as (log & Hlog & Hrun).
      rewrite Hrun. eexists. split; [reflexivity | ].
      unfold state_of, trace_of. cbn [fst snd error].
      split; [discriminate | ]. intros _. split; [reflexivity | ].
      rewrite !count_app.
      rewrite (count_console_log is_user_or_session_setter log);
        [reflexivity | | ]; auto.
Qed.

Lemma login_changes_state_iff_success_witness :
  state_of (login backend_bad_credentials "alice@zankli.example" "bad"
              alice_logged_in) = alice_logged_in.
Proof.
  destruct (login_changes_state_iff_success backend_bad_credentials
              "alice@zankli.example" "bad" alice_logged_in)
    as (res & Hres & _ & Hfailed).
  apply Hfailed. injection Hres as <-. discriminate.
Defined.

(** X4. The result of [login] and everything it does depend on the
    backend only, not on the state of the provider when it is called:
    started in two different states, it resolves to the same value and
    performs the same events. *)
Theorem login_ignores_current_state
    (b : Backend) (mail password : string) (s1 s2 : AuthState) :
  completion_of (login b mail password s1) =
  completion_of (login b mail password s2) /\
  trace_of (login b mail password s1) = trace_of (login b mail password s2).
Proof.
  run_code.
  destruct (signInWithPassword b mail password)
    as [[[sess | ] [err | ]] | e]; cbn; try (split; reflexivity).
  destruct (profiles_single b (user_id (user sess)))
    as [[[p | ] [perr | ]] | e]; cbn;
    try (split; reflexivity);
    destruct (signOut b); cbn; split; reflexivity.
Qed.

Lemma filter_console_log (f : Event -> bool) (log : list Event) :
  (forall label detail, f (ConsoleError label detail) = false) ->
  Forall (fun ev => is_console_error ev = true) log ->
  filter f log = [].
Proof.
  intros Hf Hlog. apply length_zero_iff_nil.
  exact (count_console_log f log Hf Hlog).
Qed.

(** X5. The backend calls of [login], in order.  The first call is always
    the sign-in with the credentials given.  No further call is made unless
    sign-in succeeds; then the profile of the session's user is queried, and
    a sign-out call follows exactly when that lookup fails. *)
Theorem login_backend_calls
    (b : Backend) (mail password : string) (s : AuthState) :
  let calls := filter is_backend_call (trace_of (login b mail password s)) in
  (calls = [CallSignIn mail password] /\
   forall sess, ~ sign_in_succeeds b mail password sess) \/
  (exists sess p,
     sign_in_succeeds b mail password sess /\
     profile_lookup_succeeds b sess p /\
     calls = [CallSignIn mail password;
              CallProfileQuery (user_id (user sess))]) \/
  (exists sess,
     sign_in_succeeds b mail password sess /\
     profile_lookup_fails b sess /\
     calls = [CallSignIn mail password;
              CallProfileQuery (user_id (user sess)); CallSignOut]).
Proof.
  intros calls. subst calls.
  destruct (backend_cases b mail password)
    as [(e & H) | [(err & H) | [(r & H & Herr & Hsess) | (sess & Hin & Hp)]]].
  - left. rewrite (login_sign_in_threw b mail password s e H).
    split; [reflexivity | ]. intros sess (r & Hr & _). congruence.
  - left. rewrite (login_credentials_rejected b mail password s err H).
    split; [reflexivity | ].
    destruct H as (r & Hr & Herr). intros sess (r' & Hr' & Hnone & _).
    congruence.
  - left. rewrite (login_no_session b mail password s r H Herr Hsess).
    split; [reflexivity | ]. intros sess (r' & Hr' & _ & Hsome). congruence.
  - right. destruct Hp as [(p & Hp) | Hfail].
    + left. exists sess, p. split; [exact Hin | ]. split; [exact Hp | ].
      now rewrite (login_succeeded b mail password s sess p Hin Hp).
    + right. exists sess. split; [exact Hin | ]. split; [exact Hfail | ].
      destruct (login_profile_failed b mail password s sess Hin Hfail)
        as (log & Hlog & Hrun).
      rewrite Hrun. unfold trace_of. cbn [snd].
      rewrite !filter_app, (filter_console_log is_backend_call log); auto.
Qed.




(** ** [logout] when the backend call throws *)

(** X7. [logout] resolves exactly when the backend sign-out call returns.
    When that call throws, [logout] completes with the very value thrown,
    after the one sign-out call and without writing to the console or
    touching the state. *)
Theorem logout_resolves_iff_sign_out_returns (b : Backend) (s : AuthState) :
  (completion_of (logout b s) = Normal tt <->
   exists r, signOut b = Resolved r) /\
  (forall e, signOut b = Rejected e ->
     completion_of (logout b s) = Throw e /\
     trace_of (logout b s) = [CallSignOut] /\
     state_of (logout b s) = s).
Proof.
  run_code. destruct (signOut b) as [r | e]; cbn.
  - split; [ | discriminate].
    destruct (signout_error r); cbn; split; eauto.
  - split.
    + split; [discriminate | intros (r & Hr); discriminate Hr].
    + intros e' He. injection He as <-. auto.
Qed.

Lemma logout_resolves_iff_sign_out_returns_witness :
  completion_of (logout backend_signout_throws alice_logged_in)
  = Throw fetch_failed /\
  trace_of (logout backend_signout_throws alice_logged_in) = [CallSignOut] /\
  state_of (logout backend_signout_throws alice_logged_in) = alice_logged_in.
Proof.
  apply (logout_resolves_iff_sign_out_returns backend_signout_throws
           alice_logged_in).
  reflexivity.
Defined.

(** ** Notifications in sequence *)

Lemma handler_state (event : string) (payload : option Session)
    (s : AuthState) :
  state_of (onAuthStateChange_handler event payload s) =
  if String.eqb event "SIGNED_OUT" then cleared s else s.
Proof. run_code. now destruct (String.eqb event "SIGNED_OUT"). Qed.

Lemma notify_all_cleared (ns : list (string * option Session))
    (s : AuthState) :
  notify_all ns (cleared s) = cleared s.
Proof.
  induction ns as [ | [event payload] rest IH]; [reflexivity | ].
  unfold notify_all in *. cbn. rewrite handler_state.
  now destruct (String.eqb event "SIGNED_OUT").
Qed.

(** X9. After any sequence of backend notifications the provider state is
    the state before them, with [currentUser] and [session] cleared exactly
    when one of the notifications was a sign-out; the sessions the
    notifications carry are never used.  In particular no sequence of
    notifications logs a user in: a logged-out provider is left as it
    was. *)
Theorem notifications_only_clear
    (ns : list (string * option Session)) (s : AuthState) :
  notify_all ns s = (if existsb is_signed_out ns then cleared s else s) /\
  (currentUser s = None -> session s = None -> notify_all ns s = s).
Proof.
  assert (Hall : forall st,
             notify_all ns st =
             if existsb is_signed_out ns then cleared st else st).
  { induction ns as [ | [event payload] rest IH]; intros st;
      [reflexivity | ].
    unfold notify_all in *. cbn. rewrite handler_state.
    unfold is_signed_out at 1. cbn.
    destruct (String.eqb event "SIGNED_OUT"); cbn.
    - apply (notify_all_cleared rest st).
    - apply IH. }
  split; [apply Hall | ].
  intros Hu Hx. rewrite Hall.
  destruct (existsb is_signed_out ns); [ | reflexivity].
  destruct s as [u x i a]. cbn in *. now subst.
Qed.

Lemma notifications_only_clear_witness :
  notify_all [("INITIAL_SESSION", Some alice_session);
              ("SIGNED_IN", Some alice_session);
              ("TOKEN_REFRESHED", Some alice_session)] initial_state
  = initial_state.
Proof.
  apply (notifications_only_clear
           [("INITIAL_SESSION", Some alice_session);
            ("SIGNED_IN", Some alice_session);
            ("TOKEN_REFRESHED", Some alice_session)] initial_state).
  - reflexivity.
  - reflexivity.
Defined.

(** ** A whole session *)

(** X10. Logging in, logging out and receiving the sign-out notification
    bring a freshly mounted provider back to its initial state; the logout
    call alone does not: after it the user is still set, until the
    notification arrives. *)
Theorem login_logout_round_trip
    (b b' : Backend) (mail password : string) (sess : Session) (p : Profile)
    (payload : option Session) :
  sign_in_succeeds b mail password sess ->
  profile_lookup_succeeds b sess p ->
  let s1 := state_of (login b mail password initial_state) in
  let s2 := state_of (logout b' s1) in
  currentUser s2 = currentUser s1 /\
  session s2 = Some sess /\
  currentUser s2 <> None /\
  state_of (onAuthStateChange_handler "SIGNED_OUT" payload s2)
  = initial_state.
Proof.
  intros Hin Hp s1 s2. subst s2 s1.
  rewrite logout_keeps_state.
  rewrite (login_succeeded b mail password initial_state sess p Hin Hp).
  cbn. split; [reflexivity | ]. split; [reflexivity | ].
  split; [discriminate | reflexivity].
Qed.

Lemma login_logout_round_trip_witness :
  state_of (onAuthStateChange_handler "SIGNED_OUT" None
              (state_of (logout backend_signout_error
                           (state_of (login backend_ok "alice@zankli.example"
                                        "pw" initial_state)))))
  = initial_state.
Proof.
  apply (login_logout_round_trip backend_ok backend_signout_error
           "alice@zankli.example" "pw" alice_session alice_profile None).
  - eexists. split; [reflexivity | split; reflexivity].
  - eexists. split; [reflexivity | split; reflexivity].
Defined.

(** ** The bootstrap *)

Lemma getElementById_first (document : list DomElement) (key : string)
    (el : DomElement) :
  getElementById document key = Some el ->
  exists before after,
    document = before ++ el :: after /\
    has_id key el = true /\
    forall x, In x before -> has_id key x = false.
Proof.
  unfold getElementById.
  induction document as [ | d rest IH]; cbn; [discriminate | ].
  destruct (has_id key d) eqn:Hd.
  - intros Hel. injection Hel as <-. exists [], rest.
    split; [reflexivity | ]. split; [exact Hd | ]. intros x [].
  - intros Hel. destruct (IH Hel) as (before & after & -> & Hid & Hnone).
    exists (d :: before), after. split; [reflexivity | ].
    split; [exact Hid | ]. intros x [<- | Hx]; auto.
Qed.

Lemma has_id_spec (key : string) (el : DomElement) :
  has_id key el = true <-> dom_id el = Some key.
Proof.
  unfold has_id. destruct (dom_id el) as [i | ]; [ | split; discriminate].
  destruct (String.eqb_spec i key) as [-> | Hne]; split; try reflexivity;
    try discriminate.
  intros H. injection H as ->. now destruct Hne.
Qed.

Lemma getElementById_finds (before after : list DomElement)
    (key : string) (el : DomElement) :
  has_id key el = true ->
  (forall x, In x before -> has_id key x = false) ->
  getElementById (before ++ el :: after) key = Some el.
Proof.
  unfold getElementById. intros Hel.
  induction before as [ | d rest IH]; intros Hnone; cbn.
  - now rewrite Hel.
  - rewrite (Hnone d (or_introl eq_refl)). apply IH.
    intros x Hx. apply Hnone. now right.
Qed.

Lemma has_id_false (key : string) (el : DomElement) :
  dom_id el <> Some key -> has_id key el = false.
Proof.
  intros Hne. destruct (has_id key el) eqn:Hid; [ | reflexivity].
  now destruct (Hne (proj1 (has_id_spec key el) Hid)).
Qed.

(** X11. The bootstrap throws its mount-point error exactly when no
    element of the document has the id [root].  Otherwise it does not
    throw: it renders the application tree into the first element of the
    document with that id, also when several elements carry it. *)
Theorem bootstrap_mount_point (document : list DomElement) :
  (bootstrap document = Throw (mkThrown (Some root_missing_message)) <->
   forall el, In el document -> dom_id el <> Some "root") /\
  (forall before el after,
     document = before ++ el :: after ->
     dom_id el = Some "root" ->
     (forall x, In x before -> dom_id x <> Some "root") ->
     bootstrap document = Normal (mkMounted el app_tree)) /\
  ((exists el, In el document /\ dom_id el = Some "root") ->
   exists before el after,
     document = before ++ el :: after /\
     dom_id el = Some "root" /\
     (forall x, In x before -> dom_id x <> Some "root") /\
     bootstrap document = Normal (mkMounted el app_tree)) /\
  (forall m, bootstrap document = Normal m ->
     rendered m = app_tree /\
     dom_id (container m) = Some "root" /\
     exists before after,
       document = before ++ container m :: after /\
       forall el, In el before -> dom_id el <> Some "root").
Proof.
  split; [ | split; [ | split]].
  - unfold bootstrap.
    destruct (getElementById document "root") as [el | ] eqn:Hget.
    + destruct (getElementById_first document "root" el Hget)
        as (before & after & Hdoc & Hid & Hnone).
      split; [discriminate | ]. intros Hall.
      destruct (Hall el); [ | now apply has_id_spec].
      rewrite Hdoc. apply in_or_app. right. now left.
    + split; [ | reflexivity].
      intros _ el Hel Hroot. apply has_id_spec in Hroot.
      unfold getElementById in Hget.
      now rewrite (find_none _ _ Hget el Hel) in Hroot.
  - intros before el after -> Hroot Hnone. unfold bootstrap.
    rewrite (getElementById_finds before after "root" el);
      [reflexivity | now apply has_id_spec | ].
    intros x Hx. apply has_id_false. now apply Hnone.
  - intros (x & Hx & Hroot). unfold bootstrap.
    destruct (getElementById document "root") as [el | ] eqn:Hget.
    + destruct (getElementById_first document "root" el Hget)
        as (before & after & Hdoc & Hid & Hnone).
      exists before, el, after. split; [exact Hdoc | ].
      split; [now apply has_id_spec | ]. split; [ | reflexivity].
      intros y Hy Hyroot. apply has_id_spec in Hyroot.
      rewrite (Hnone y Hy) in Hyroot. discriminate.
    + unfold getElementById in Hget. apply has_id_spec in Hroot.
      now rewrite (find_none _ _ Hget x Hx) in Hroot.
  - unfold bootstrap.
    destruct (getElementById document "root") as [el | ] eqn:Hget;
      [ | discriminate].
    destruct (getElementById_first document "root" el Hget)
      as (before & after & Hdoc & Hid & Hnone).
    intros m Hm. injection Hm as <-. cbn.
    split; [reflexivity | ]. split; [now apply has_id_spec | ].
    exists before, after. split; [exact Hdoc | ].
    intros x Hx Hroot. apply has_id_spec in Hroot.
    rewrite (Hnone x Hx) in Hroot. discriminate.
Qed.

Lemma bootstrap_mount_point_witness :
  bootstrap [mkDomElement "div" (Some "banner"); mkDomElement "div" None]
  = Throw (mkThrown (Some "Could not find root element to mount to")) /\
  bootstrap [mkDomElement "noscript" None;
             mkDomElement "div" (Some "root");
             mkDomElement "span" (Some "root")]
  = Normal (mkMounted (mkDomElement "div" (Some "root")) app_tree).
Proof.
  split.
  - apply (proj1 (bootstrap_mount_point
                    [mkDomElement "div" (Some "banner");
                     mkDomElement "div" None])).
    intros el [<- | [<- | []]]; discriminate.
  - apply (proj1 (proj2 (bootstrap_mount_point
                           [mkDomElement "noscript" None;
                            mkDomElement "div" (Some "root");
                            mkDomElement "span" (Some "root")]))
                 [mkDomElement "noscript" None]
                 (mkDomElement "div" (Some "root"))
                 [mkDomElement "span" (Some "root")]).
    + reflexivity.
    + reflexivity.
    + intros x [<- | []]. discriminate.
Defined.
